(** * The FastAPI application facade (fastapi/applications.py)

    A shallow embedding of class [FastAPI]: the middleware stack builder,
    the exception translation table, the lazily cached OpenAPI schema
    endpoint, the ReDoc page and the constructor.

    Conventions.
    - The facade object is a record; a method that mutates [self] is a
      function returning the new record.
    - [FastAPI] derives from [Starlette], where [routes] is a property
      without setter that returns [self.router.routes].  Reading
      [self.routes] therefore reads the router, and the constructor's
      assignment [self.routes = []] raises [AttributeError]; what the
      constructor wrote to [self] before that stays written, as in Python.
    - Objects the facade holds by reference are represented symbolically:
      the composed middleware stack names the router as [RouterApp] instead
      of copying its routes, and an instantiated middleware is the
      constructor call [cls(app, **options)] that produced it.
    - The exception table is a finite map ([gmap]); Python lists are lists. *)

From stdpp Require Import base option list gmap strings.

Open Scope string_scope.
Open Scope list_scope.
Set Warnings "-register-all,-clear-no-such-hyp".

(** ** JSON values and responses *)

Inductive Json :=
| JNull
| JBool (b : bool)
| JNum (n : Z)
| JStr (s : string)
| JArr (items : list Json)
| JObj (fields : list (string * Json)).

(** A Python [Dict[str, Any]] with its insertion order. *)
Definition Dict := list (string * Json).

(** Truth value of a dict in a Python condition: empty is false. *)
Definition dict_truthy (d : Dict) : bool :=
  match d with
  | [] => false
  | _ :: _ => true
  end.

(** Truth value of an [Optional[Dict]]: [None] and [{}] are false. *)
Definition opt_dict_truthy (d : option Dict) : bool :=
  match d with
  | None => false
  | Some d => dict_truthy d
  end.



(** [d.get(k)] on an insertion-ordered dict. *)
Fixpoint dict_get {V : Type} (k : string) (d : list (string * V)) : option V :=
  match d with
  | [] => None
  | (k', v) :: d' => if String.eqb k k' then Some v else dict_get k d'
  end.

Record Request := { req_method : string; req_path : string }.

(** [starlette.responses.JSONResponse(content, status_code=200)] *)
Record JSONResponse := { status_code : Z; body : Json }.

Definition json_response (content : option Dict) : JSONResponse :=
  {| status_code := 200; body := from_option JObj JNull content |}.

(** ** Routes *)

(** What a route calls.  The four documentation routes are the lambdas of
    the constructor, each closing over [self] and calling one method. *)
Inductive Endpoint :=
| UserEndpoint (name : string)
| openapi_lambda
| docs_lambda
| redoc_lambda
| swagger_ui_oauth2_redirect_lambda.

Inductive BaseRoute :=
| Route (path : string) (endpoint : Endpoint) (methods : option (list string))
        (name : option string) (include_in_schema : bool)
| WebSocketRoute (path : string) (endpoint : Endpoint) (name : option string)
| Mount (path : string) (app : MountedApp) (name : option string)
with MountedApp :=
| SubRouter (routes : list BaseRoute)
| OpaqueApp (label : string).

Module routing.

Record APIRouter := { routes : list BaseRoute }.

(** Modelled from the spec: [APIRouter.add_route] (fastapi/routing.py is
    not in the sources).  Section 4.1, register: "appends entry to the
    ordered sequence". *)
Definition add_route (path : string) (endpoint : Endpoint)
    (methods : option (list string)) (name : option string)
    (include_in_schema : bool) (r : APIRouter) : APIRouter :=
  {| routes := routes r ++ [Route path endpoint methods name include_in_schema] |}.

(** Modelled from the spec: [APIRouter.add_websocket_route]; section 4.6,
    "delegate to Route Registry register". *)
Definition add_websocket_route (path : string) (endpoint : Endpoint)
    (name : option string) (r : APIRouter) : APIRouter :=
  {| routes := routes r ++ [WebSocketRoute path endpoint name] |}.

(** Modelled from the spec: [APIRouter.mount]; section 4.1, mount: "wraps
    target (sub-registry or opaque sub-application) as a Mount entry with
    the given path prefix". *)
Definition mount (path : string) (app : MountedApp) (name : option string)
    (r : APIRouter) : APIRouter :=
  {| routes := routes r ++ [Mount path app name] |}.

(** Modelled from the spec: [APIRouter.include_router]; section 4.6,
    includeRegistry "delegates to Route Registry mount".  The propagated
    metadata (tags, dependencies, responses, ...) is not represented. *)
Definition include_router (sub : APIRouter) (prefix : string)
    (r : APIRouter) : APIRouter :=
  mount prefix (SubRouter (routes sub)) None r.

End routing.

(** ** Middleware *)

(** A middleware class is known by its name; its keyword options are an
    opaque bag. *)
Definition MiddlewareClass := string.
Definition Options := list (string * string).

(** [starlette.middleware.Middleware(cls, **options)] *)
Record Middleware := { cls : MiddlewareClass; options : Options }.

(** An ASGI application as the facade builds it: the router it owns, or a
    middleware class instantiated on an inner application. *)
Inductive ASGIApp :=
| RouterApp
| MiddlewareApp (cls : MiddlewareClass) (app : ASGIApp) (options : Options).

(** [middleware.cls(app, **middleware.options)] *)
Definition instantiate (app : ASGIApp) (middleware : Middleware) : ASGIApp :=
  MiddlewareApp (cls middleware) app (options middleware).

(** [FastAPI.build_middleware_stack], on the two attributes it reads:
<<
    app = self.router
    for middleware in reversed(self.user_middleware):
        app = middleware.cls(app, **middleware.options)
    return app
>> *)
Definition build_stack (router : ASGIApp) (user_middleware : list Middleware)
  : ASGIApp :=
  fold_left instantiate (rev user_middleware) router.

(** The builder as section 4.2 of the specification words it: "start with
    current = terminalHandler; iterate the middleware list in reverse
    declaration order; for each descriptor, set current =
    descriptor.implementation(current, descriptor.options); return final
    current".  The cursor [i] counts the descriptors still to visit and the
    one visited next is at index [i - 1]. *)
Fixpoint reference_iterate (middlewareList : list Middleware) (i : nat)
    (current : ASGIApp) : ASGIApp :=
  match i with
  | O => current
  | S j =>
      match middlewareList !! j with
      | Some descriptor =>
          reference_iterate middlewareList j
            (MiddlewareApp (cls descriptor) current (options descriptor))
      | None => current
      end
  end.

Definition reference_build (middlewareList : list Middleware)
    (terminalHandler : ASGIApp) : ASGIApp :=
  reference_iterate middlewareList (length middlewareList) terminalHandler.

(** The nesting the loop produces, written as a right fold: the head of the
    list is applied last. *)
Definition nest (user_middleware : list Middleware) (router : ASGIApp)
  : ASGIApp :=
  foldr (fun middleware app =>
           MiddlewareApp (cls middleware) app (options middleware))
        router user_middleware.

(** The middleware class at the top of a stack, if any. *)
Definition outermost (app : ASGIApp) : option Middleware :=
  match app with
  | RouterApp => None
  | MiddlewareApp c _ o => Some {| cls := c; options := o |}
  end.

(** The middleware instantiated directly on the router, if any. *)
Fixpoint innermost (app : ASGIApp) : option Middleware :=
  match app with
  | RouterApp => None
  | MiddlewareApp c RouterApp o => Some {| cls := c; options := o |}
  | MiddlewareApp _ inner _ => innermost inner
  end.

(** ** Exceptions and their handlers *)

(** The classes an exception handler can be registered for. *)
Inductive ExceptionClass :=
| StarletteHTTPException
| RequestValidationError
| UserException (name : string).

(** A key of the exception table: [Union[int, Type[Exception]]]. *)
Inductive HandlerKey :=
| StatusCode (code : Z)
| ExcType (c : ExceptionClass).

#[global] Instance ExceptionClass_eq_dec : EqDecision ExceptionClass.
Proof. solve_decision. Defined.

#[global] Instance HandlerKey_eq_dec : EqDecision HandlerKey.
Proof. solve_decision. Defined.

Definition HandlerKey_encode (k : HandlerKey) : Z + (bool + string) :=
  match k with
  | StatusCode code => inl code
  | ExcType StarletteHTTPException => inr (inl true)
  | ExcType RequestValidationError => inr (inl false)
  | ExcType (UserException name) => inr (inr name)
  end.

Definition HandlerKey_decode (x : Z + (bool + string)) : HandlerKey :=
  match x with
  | inl code => StatusCode code
  | inr (inl true) => ExcType StarletteHTTPException
  | inr (inl false) => ExcType RequestValidationError
  | inr (inr name) => ExcType (UserException name)
  end.

#[global] Instance HandlerKey_countable : Countable HandlerKey.
Proof.
  refine (inj_countable' HandlerKey_encode HandlerKey_decode _).
  by intros [code|[| |name]].
Defined.

(** A raised condition, with the attributes the built-in handlers read. *)
Inductive Raised :=
| HTTPError (status : Z) (detail : Json)
| ValidationError (errors : list Json)
| OtherError (c : ExceptionClass).

(** A handler answers a request and a raised condition; [None] stands for a
    handler that fails on a condition it was not written for. *)
Definition Handler := Request -> Raised -> option JSONResponse.

Module exception_handlers_py.

(** Modelled from the spec: [http_exception_handler]
    (fastapi/exception_handlers.py is not in the sources).  Section 4.3:
    "a handler that serializes {detail: ...} as a JSON body with the
    given status". *)
Definition http_exception_handler : Handler :=
  fun _ exc =>
    match exc with
    | HTTPError status detail =>
        Some {| status_code := status; body := JObj [("detail", detail)] |}
    | _ => None
    end.

(** Modelled from the spec: [request_validation_exception_handler].
    Section 4.3: "a handler that serializes a structured list of
    per-field error descriptors with status 422"; section 7 gives the
    shape {"detail": list-of-field-errors}. *)
Definition request_validation_exception_handler : Handler :=
  fun _ exc =>
    match exc with
    | ValidationError errors =>
        Some {| status_code := 422; body := JObj [("detail", JArr errors)] |}
    | _ => None
    end.

End exception_handlers_py.

(** ** The schema generator (fastapi/openapi/utils.py) *)

Module openapi_utils.

(** The keyword arguments [FastAPI.openapi] passes to [get_openapi]. *)
Record Args := {
  title : string;
  version : string;
  description : string;
  routes : list BaseRoute;
  tags : option (list Dict);
  servers : list Dict;
  terms_of_service : option string;
  contact : option Dict;
  license_info : option Dict;
  webhooks : option (list (string * routing.APIRouter));
}.

Definition lower_ascii (c : Ascii.ascii) : Ascii.ascii :=
  let n := Ascii.nat_of_ascii c in
  if (65 <=? n)%nat && (n <=? 90)%nat then Ascii.ascii_of_nat (n + 32) else c.

Fixpoint lower (s : string) : string :=
  match s with
  | EmptyString => EmptyString
  | String c s' => String (lower_ascii c) (lower s')
  end.

(** Modelled from the spec: the walk of section 4.4.  "for each Endpoint
    with inclusion-in-schema = true, emit one operation per allowed verb,
    keyed by its effective path (prefix-accumulated through any enclosing
    Mounts); for each Mount, recurse with the prefix extended"; opaque
    sub-applications are skipped (section 4.6) and a WebSocket route has
    no verb (section 3).  The verbs are the ones given at registration. *)
Fixpoint operations (prefix : string) (r : BaseRoute) {struct r}
  : list (string * string) :=
  match r with
  | Route path _ methods _ include_in_schema =>
      if include_in_schema
      then map (fun verb => (prefix +:+ path, lower verb)) (default [] methods)
      else []
  | WebSocketRoute _ _ _ => []
  | Mount path app _ =>
      match app with
      | SubRouter sub =>
          (fix walk (rs : list BaseRoute) : list (string * string) :=
             match rs with
             | [] => []
             | r' :: rs' => operations (prefix +:+ path) r' ++ walk rs'
             end) sub
      | OpaqueApp _ => []
      end
  end.

Definition walk_routes (rs : list BaseRoute) : list (string * string) :=
  flat_map (operations "") rs.

(** [paths.setdefault(path, {})[verb] = operation], first writer kept. *)
Fixpoint add_operation (path verb : string)
    (paths : list (string * list string)) : list (string * list string) :=
  match paths with
  | [] => [(path, [verb])]
  | (p, verbs) :: rest =>
      if String.eqb p path
      then (p, if bool_decide (verb ∈ verbs) then verbs else verbs ++ [verb]) :: rest
      else (p, verbs) :: add_operation path verb rest
  end.

Definition group_by_path (ops : list (string * string))
  : list (string * list string) :=
  fold_left (fun paths op => add_operation op.1 op.2 paths) ops [].

(** The operation object of one verb; its parameters and bodies come from
    the signature introspection, which is outside this model. *)
Definition path_item (verbs : list string) : Json :=
  JObj (map (fun verb => (verb, JObj [])) verbs).

Definition paths_section (rs : list BaseRoute) : Dict :=
  map (fun pv => (pv.1, path_item pv.2)) (group_by_path (walk_routes rs)).

(** Tags deduplicated by name, first definition wins. *)
Fixpoint dedup_tags (seen : list string) (ts : list Dict) : list Dict :=
  match ts with
  | [] => []
  | t :: ts' =>
      match dict_get "name" t with
      | Some (JStr n) =>
          if bool_decide (n ∈ seen) then dedup_tags seen ts'
          else t :: dedup_tags (n :: seen) ts'
      | _ => t :: dedup_tags seen ts'
      end
  end.

Definition optional_field (key : string) (v : option Json) : Dict :=
  match v with
  | Some j => [(key, j)]
  | None => []
  end.

Definition info_section (a : Args) : Dict :=
  [("title", JStr (title a)); ("version", JStr (version a))]
    ++ (if String.eqb (description a) "" then []
        else [("description", JStr (description a))])
    ++ optional_field "termsOfService" (JStr <$> terms_of_service a)
    ++ optional_field "contact" (JObj <$> contact a)
    ++ optional_field "license" (JObj <$> license_info a).

(** The marker of the schema format. *)
Definition openapi_version : string := "3.1.0".

(** Modelled from the spec: [get_openapi], sections 4.4 and 6: a document
    with the version marker, [info], [servers], [paths], [webhooks] and
    [tags]. *)
Definition get_openapi (a : Args) : Dict :=
  [("openapi", JStr openapi_version); ("info", JObj (info_section a))]
    ++ (match servers a with
        | [] => []
        | _ :: _ => [("servers", JArr (JObj <$> servers a))]
        end)
    ++ [("paths", JObj (paths_section (routes a)))]
    ++ optional_field "webhooks"
         ((fun ws => JObj (map (fun w => (w.1, path_item (walk_routes (routing.routes w.2)).*2)) ws))
            <$> webhooks a)
    ++ optional_field "tags"
         ((fun ts => JArr (JObj <$> dedup_tags [] ts)) <$> tags a).


End openapi_utils.

(** ** The facade *)

(** The keyword arguments of [FastAPI.__init__] that the modelled methods
    read, with the defaults of the signature. *)
Module kw.

Record t := {
  routes : option (list BaseRoute);
  title : string;
  description : string;
  version : string;
  openapi_url : option string;
  openapi_tags : option (list Dict);
  servers : option (list Dict);
  docs_url : option string;
  redoc_url : option string;
  swagger_ui_oauth2_redirect_url : option string;
  middleware : option (list Middleware);
  exception_handlers : option (gmap HandlerKey Handler);
  terms_of_service : option string;
  contact : option Dict;
  license_info : option Dict;
  root_path : string;
  webhooks : option (list (string * routing.APIRouter));
}.

Definition defaults : t := {|
  routes := None;
  title := "FastAPI";
  description := "";
  version := "0.1.0";
  openapi_url := Some "/openapi.json";
  openapi_tags := None;
  servers := None;
  docs_url := Some "/docs";
  redoc_url := Some "/redoc";
  swagger_ui_oauth2_redirect_url := Some "/docs/oauth2-redirect";
  middleware := None;
  exception_handlers := None;
  terms_of_service := None;
  contact := None;
  license_info := None;
  root_path := "";
  webhooks := None;
|}.

(** The defaults with [middleware=l]. *)
Definition with_middleware (l : list Middleware) : t := {|
  routes := None; title := "FastAPI"; description := ""; version := "0.1.0";
  openapi_url := Some "/openapi.json"; openapi_tags := None; servers := None;
  docs_url := Some "/docs"; redoc_url := Some "/redoc";
  swagger_ui_oauth2_redirect_url := Some "/docs/oauth2-redirect";
  middleware := Some l; exception_handlers := None; terms_of_service := None;
  contact := None; license_info := None; root_path := ""; webhooks := None;
|}.

End kw.

(** The attributes of a [FastAPI] object that the modelled methods read or
    write.  The remaining ones ([_debug], [state], [dependencies],
    [docs_url], [responses], ...) are read by no modelled method. *)
Record FastAPI := {
  router : routing.APIRouter;
  title : string;
  description : string;
  version : string;
  terms_of_service : option string;
  contact : option Dict;
  license_info : option Dict;
  openapi_url : option string;
  openapi_tags : option (list Dict);
  servers : list Dict;
  root_path : string;
  user_middleware : list Middleware;
  middleware_stack : ASGIApp;
  exception_handlers : gmap HandlerKey Handler;
  openapi_schema : option Dict;
  webhooks : option (list (string * routing.APIRouter));
}.

(** [Starlette.routes], the property [FastAPI] inherits:
<<
    @property
    def routes(self): return self.router.routes
>> *)
Definition routes (self : FastAPI) : list BaseRoute := routing.routes (router self).

(** Attribute assignments. *)

Definition set_router (r : routing.APIRouter) (self : FastAPI) : FastAPI :=
  {| router := r;
     title := title self;
     description := description self;
     version := version self;
     terms_of_service := terms_of_service self;
     contact := contact self;
     license_info := license_info self;
     openapi_url := openapi_url self;
     openapi_tags := openapi_tags self;
     servers := servers self;
     root_path := root_path self;
     user_middleware := user_middleware self;
     middleware_stack := middleware_stack self;
     exception_handlers := exception_handlers self;
     openapi_schema := openapi_schema self;
     webhooks := webhooks self |}.

Definition set_user_middleware (l : list Middleware) (self : FastAPI) : FastAPI :=
  {| router := router self;
     title := title self;
     description := description self;
     version := version self;
     terms_of_service := terms_of_service self;
     contact := contact self;
     license_info := license_info self;
     openapi_url := openapi_url self;
     openapi_tags := openapi_tags self;
     servers := servers self;
     root_path := root_path self;
     user_middleware := l;
     middleware_stack := middleware_stack self;
     exception_handlers := exception_handlers self;
     openapi_schema := openapi_schema self;
     webhooks := webhooks self |}.

Definition set_middleware_stack (app : ASGIApp) (self : FastAPI) : FastAPI :=
  {| router := router self;
     title := title self;
     description := description self;
     version := version self;
     terms_of_service := terms_of_service self;
     contact := contact self;
     license_info := license_info self;
     openapi_url := openapi_url self;
     openapi_tags := openapi_tags self;
     servers := servers self;
     root_path := root_path self;
     user_middleware := user_middleware self;
     middleware_stack := app;
     exception_handlers := exception_handlers self;
     openapi_schema := openapi_schema self;
     webhooks := webhooks self |}.

Definition set_exception_handlers (t : gmap HandlerKey Handler) (self : FastAPI) : FastAPI :=
  {| router := router self;
     title := title self;
     description := description self;
     version := version self;
     terms_of_service := terms_of_service self;
     contact := contact self;
     license_info := license_info self;
     openapi_url := openapi_url self;
     openapi_tags := openapi_tags self;
     servers := servers self;
     root_path := root_path self;
     user_middleware := user_middleware self;
     middleware_stack := middleware_stack self;
     exception_handlers := t;
     openapi_schema := openapi_schema self;
     webhooks := webhooks self |}.

Definition set_openapi_schema (d : option Dict) (self : FastAPI) : FastAPI :=
  {| router := router self;
     title := title self;
     description := description self;
     version := version self;
     terms_of_service := terms_of_service self;
     contact := contact self;
     license_info := license_info self;
     openapi_url := openapi_url self;
     openapi_tags := openapi_tags self;
     servers := servers self;
     root_path := root_path self;
     user_middleware := user_middleware self;
     middleware_stack := middleware_stack self;
     exception_handlers := exception_handlers self;
     openapi_schema := d;
     webhooks := webhooks self |}.

(** *** Methods *)

(** [build_middleware_stack(self)]: the loop of [build_stack] started on
    [self.router]. *)
Definition build_middleware_stack (self : FastAPI) : ASGIApp :=
  build_stack RouterApp (user_middleware self).

(** [add_exception_handler(self, exc_class_or_status_code, handler)]; the
    two branches of the [isinstance] test store alike. *)
Definition add_exception_handler (exc_class_or_status_code : HandlerKey)
    (handler : Handler) (self : FastAPI) : FastAPI :=
  match exc_class_or_status_code with
  | StatusCode _ =>
      set_exception_handlers
        (<[exc_class_or_status_code := handler]> (exception_handlers self)) self
  | ExcType _ =>
      set_exception_handlers
        (<[exc_class_or_status_code := handler]> (exception_handlers self)) self
  end.

(** [http_exception(self, request, exc)] *)
Definition http_exception (self : FastAPI) : Handler :=
  fun request exc => exception_handlers_py.http_exception_handler request exc.

(** [request_validation_exception(self, request, exc)] *)
Definition request_validation_exception (self : FastAPI) : Handler :=
  fun request exc =>
    exception_handlers_py.request_validation_exception_handler request exc.

(** [setup(self)] *)
Definition setup (self : FastAPI) : FastAPI :=
  let self := add_exception_handler (ExcType StarletteHTTPException)
                (http_exception self) self in
  add_exception_handler (ExcType RequestValidationError)
    (request_validation_exception self) self.

(** The arguments [openapi] hands to the generator. *)
Definition openapi_args (self : FastAPI) : openapi_utils.Args :=
  {| openapi_utils.title := title self;
     openapi_utils.version := version self;
     openapi_utils.description := description self;
     openapi_utils.routes := routes self;
     openapi_utils.tags := openapi_tags self;
     openapi_utils.servers := servers self;
     openapi_utils.terms_of_service := terms_of_service self;
     openapi_utils.contact := contact self;
     openapi_utils.license_info := license_info self;
     openapi_utils.webhooks := webhooks self |}.

Section SchemaEndpoint.

(** The imported generator. *)
Variable get_openapi : openapi_utils.Args -> Dict.

(** [openapi(self, request)]: the response and the facade afterwards.
<<
    if self.openapi_schema:
        return JSONResponse(self.openapi_schema)
    self.openapi_schema = get_openapi(...)
    return JSONResponse(self.openapi_schema)
>> *)
Definition openapi (request : Request) (self : FastAPI)
  : JSONResponse * FastAPI :=
  if opt_dict_truthy (openapi_schema self)
  then (json_response (openapi_schema self), self)
  else
    let self := set_openapi_schema (Some (get_openapi (openapi_args self))) self in
    (json_response (openapi_schema self), self).

End SchemaEndpoint.

(** [add_route(self, path, route, *, methods, name, include_in_schema)] *)
Definition add_route (path : string) (route : Endpoint)
    (methods : option (list string)) (name : option string)
    (include_in_schema : bool) (self : FastAPI) : FastAPI :=
  set_router (routing.add_route path route methods name include_in_schema
                (router self)) self.

(** [add_websocket_route(self, path, route, *, name)] *)
Definition add_websocket_route (path : string) (route : Endpoint)
    (name : option string) (self : FastAPI) : FastAPI :=
  set_router (routing.add_websocket_route path route name (router self)) self.

(** [include_router(self, router, *, prefix, ...)] *)
Definition include_router (sub : routing.APIRouter) (prefix : string)
    (self : FastAPI) : FastAPI :=
  set_router (routing.include_router sub prefix (router self)) self.

(** [mount(self, path, app, name)] *)
Definition mount (path : string) (app : MountedApp) (name : option string)
    (self : FastAPI) : FastAPI :=
  set_router (routing.mount path app name (router self)) self.

(** [add_middleware(self, middleware_class, **options)]
<<
      self.user_middleware.insert(0, Middleware(middleware_class, **options))
      self.middleware_stack = self.build_middleware_stack()
>> *)
Definition add_middleware (middleware_class : MiddlewareClass)
    (options : Options) (self : FastAPI) : FastAPI :=
  let self :=
    set_user_middleware
      ({| cls := middleware_class; options := options |} :: user_middleware self)
      self in
  set_middleware_stack (build_middleware_stack self) self.

(** *** Handling a request *)

Record Scope := { scope_path : string; scope_root_path : string }.

(** What can be observed of one request going through a stack. *)
Inductive Event :=
| Entered (m : Middleware)
| Dispatched (scope : Scope)
| Exited (m : Middleware).

(** The order in which a stack runs.  The middleware classes are Starlette's
    or the user's; each is taken to be a wrapper that acts when the request
    reaches it, awaits the application it was instantiated on, and acts
    again when that returns.  The router dispatches. *)
Fixpoint run (app : ASGIApp) (scope : Scope) : list Event :=
  match app with
  | RouterApp => [Dispatched scope]
  | MiddlewareApp c inner o =>
      Entered {| cls := c; options := o |}
        :: run inner scope ++ [Exited {| cls := c; options := o |}]
  end.

(** [__call__(self, scope, receive, send)] *)
Definition __call__ (self : FastAPI) (scope : Scope) : list Event :=
  let scope := {| scope_path := scope_path scope;
                  scope_root_path := root_path self |} in
  run (middleware_stack self) scope.

(** *** Construction *)

(** How a constructor call ends: it returns, or an assignment to an
    attribute that cannot be set raises. *)
Inductive Outcome (A : Type) :=
| Returned (a : A)
| AttributeError (attribute : string).
Arguments Returned {A} a.
Arguments AttributeError {A} attribute.

(** Modelled from the spec: [routing.APIRouter(routes=routes, ...)]; section
    3: the registry is the ordered sequence of its entries. *)
Definition new_router (routes : option (list BaseRoute)) : routing.APIRouter :=
  {| routing.routes := default [] routes |}.

(** Lines 134-160 of the constructor: the attribute assignments up to
    [self.exception_handlers], with the first stack build of line 157.
    [openapi_schema] and [webhooks] are assigned further down (lines 164
    and 170); the record shows an attribute not assigned yet as [None]. *)
Definition assigned_attributes (a : kw.t) : FastAPI :=
  let router := new_router (kw.routes a) in
  let user_middleware := default [] (kw.middleware a) in
  {| router := router;
     title := kw.title a;
     description := kw.description a;
     version := kw.version a;
     terms_of_service := kw.terms_of_service a;
     contact := kw.contact a;
     license_info := kw.license_info a;
     openapi_url := kw.openapi_url a;
     openapi_tags := kw.openapi_tags a;
     servers := default [] (kw.servers a);
     root_path := kw.root_path a;
     user_middleware := user_middleware;
     middleware_stack := build_stack RouterApp user_middleware;
     exception_handlers := default ∅ (kw.exception_handlers a);
     openapi_schema := None;
     webhooks := None |}.

(** [__init__(self, *, ...)]: the outcome and the object as the constructor
    leaves it.  Line 161, [self.routes = []], assigns to the property
    [routes] and raises for every argument; [setup()] of line 163, the
    assignments after it, [super().__init__] and the documentation routes
    of lines 190-225 are not reached. *)
Definition __init__ (a : kw.t) : Outcome unit * FastAPI :=
  (AttributeError "routes", assigned_attributes a).

(** *** Sequences of calls on the facade *)

(** The mutating methods of the public surface. *)
Inductive Call :=
| CallAddRoute (path : string) (route : Endpoint) (methods : option (list string))
               (name : option string) (include_in_schema : bool)
| CallAddWebsocketRoute (path : string) (route : Endpoint) (name : option string)
| CallIncludeRouter (sub : routing.APIRouter) (prefix : string)
| CallMount (path : string) (app : MountedApp) (name : option string)
| CallAddMiddleware (middleware_class : MiddlewareClass) (options : Options)
| CallAddExceptionHandler (key : HandlerKey) (handler : Handler).

Definition call (c : Call) (self : FastAPI) : FastAPI :=
  match c with
  | CallAddRoute path route methods name include_in_schema =>
      add_route path route methods name include_in_schema self
  | CallAddWebsocketRoute path route name => add_websocket_route path route name self
  | CallIncludeRouter sub prefix => include_router sub prefix self
  | CallMount path app name => mount path app name self
  | CallAddMiddleware middleware_class options =>
      add_middleware middleware_class options self
  | CallAddExceptionHandler key handler => add_exception_handler key handler self
  end.

Definition calls (cs : list Call) (self : FastAPI) : FastAPI :=
  fold_left (fun self c => call c self) cs self.

(** [add_middleware] once per descriptor, in list order. *)
Definition add_middlewares (ms : list Middleware) (self : FastAPI) : FastAPI :=
  fold_left (fun self m => add_middleware (cls m) (options m) self) ms self.

(** The first middleware a trace shows entered, and the first it shows
    exited. *)
Fixpoint first_entered (trace : list Event) : option Middleware :=
  match trace with
  | [] => None
  | Entered m :: _ => Some m
  | _ :: trace' => first_entered trace'
  end.

Fixpoint first_exited (trace : list Event) : option Middleware :=
  match trace with
  | [] => None
  | Exited m :: _ => Some m
  | _ :: trace' => first_exited trace'
  end.





(** *** The ReDoc page *)

Section Pages.

(** [starlette.responses.HTMLResponse] and the imported page renderer
    [get_redoc_html(openapi_url=..., title=...)]. *)
Variable HTMLResponse : Type.
Variable get_redoc_html : option string -> string -> HTMLResponse.

(** [redoc(self, request)] *)
Definition redoc (request : Request) (self : FastAPI) : HTMLResponse :=
  get_redoc_html (openapi_url self) (title self +:+ " - ReDoc").

End Pages.

(** *** Reading a sequence of calls *)

(** The descriptors the [add_middleware] calls of a sequence add, in call
    order. *)
Definition added_middleware (cs : list Call) : list Middleware :=
  omap (fun c =>
          match c with
          | CallAddMiddleware middleware_class options =>
              Some {| cls := middleware_class; options := options |}
          | _ => None
          end) cs.

(** The registrations the [add_exception_handler] calls of a sequence make,
    in call order. *)
Definition added_handlers (cs : list Call) : list (HandlerKey * Handler) :=
  omap (fun c =>
          match c with
          | CallAddExceptionHandler key handler => Some (key, handler)
          | _ => None
          end) cs.

(** A table after a list of registrations, each written over the last. *)
Definition register_all (registrations : list (HandlerKey * Handler))
    (table : gmap HandlerKey Handler) : gmap HandlerKey Handler :=
  fold_left (fun t kh => <[kh.1 := kh.2]> t) registrations table.

(** Sample values for the closed statements below. *)
Definition mw (name : string) : Middleware := {| cls := name; options := [] |}.

Definition a_request : Request :=
  {| req_method := "GET"; req_path := "/openapi.json" |}.

(** A facade with every attribute assigned and no schema generated yet. *)
Definition sample_facade : FastAPI :=
  {| router := new_router None;
     title := "Sample";
     description := "";
     version := "1.0";
     terms_of_service := None;
     contact := None;
     license_info := None;
     openapi_url := Some "/openapi.json";
     openapi_tags := None;
     servers := [];
     root_path := "";
     user_middleware := [];
     middleware_stack := RouterApp;
     exception_handlers := ∅;
     openapi_schema := None;
     webhooks := None |}.

(** * Properties *)

(** ** The middleware stack builder *)

Section StackBuilder.

Implicit Types (l : list Middleware) (m : Middleware) (app : ASGIApp).

Lemma build_stack_cons router m l :
  build_stack router (m :: l)
  = MiddlewareApp (cls m) (build_stack router l) (options m).
Proof.
  unfold build_stack. simpl rev. by rewrite fold_left_app.
Qed.

Lemma build_stack_nest router l : build_stack router l = nest l router.
Proof.
  induction l as [|m l IH]; [done|].
  rewrite build_stack_cons, IH. done.
Qed.

Lemma build_stack_snoc router l m :
  build_stack router (l ++ [m])
  = build_stack (MiddlewareApp (cls m) router (options m)) l.
Proof.
  unfold build_stack. by rewrite rev_unit.
Qed.

(** The cursor loop visits the first [i] descriptors, last first. *)
Lemma reference_iterate_take l (i : nat) current :
  (i ≤ length l)%nat →
  reference_iterate l i current = fold_left instantiate (rev (take i l)) current.
Proof.
  revert current. induction i as [|j IH]; intros current Hi; [done|].
  destruct (lookup_lt_is_Some_2 l j ltac:(lia)) as [x Hx].
  simpl. rewrite Hx, (take_S_r _ _ _ Hx), rev_unit. simpl.
  apply IH. lia.
Qed.

Lemma outermost_nest l router :
  outermost (nest l router) = from_option Some (outermost router) (head l).
Proof. destruct l as [|[c o] l]; done. Qed.

Lemma innermost_nest l : innermost (nest l RouterApp) = last l.
Proof.
  induction l as [|[c o] l IH]; [done|].
  destruct l as [|m' l']; [done|].
  change (nest ({| cls := c; options := o |} :: m' :: l') RouterApp)
    with (MiddlewareApp c (nest (m' :: l') RouterApp) o).
  change (last ({| cls := c; options := o |} :: m' :: l')) with (last (m' :: l')).
  rewrite <- IH. done.
Qed.

Lemma run_nest_cons m l router scope :
  run (nest (m :: l) router) scope
  = Entered m :: run (nest l router) scope ++ [Exited m].
Proof. by destruct m. Qed.

End StackBuilder.

(** C1. [build_middleware_stack] is the fold of section 4.2: started on the
    router, it visits the user middleware list in reverse declaration order,
    replaces the current application by the descriptor's class instantiated
    on it with the descriptor's options, and returns the last one; this for
    every middleware list a facade can hold. *)
Theorem build_middleware_stack_is_reference_fold (self : FastAPI) :
  build_middleware_stack self = reference_build (user_middleware self) RouterApp.
Proof.
  unfold build_middleware_stack, reference_build, build_stack.
  rewrite reference_iterate_take by done.
  by rewrite firstn_all.
Qed.

(** C10. With an empty user middleware list the builder returns the router
    itself; composing no middleware leaves any terminal handler as it is. *)
Theorem build_middleware_stack_empty (self : FastAPI) :
  user_middleware self = [] →
  build_middleware_stack self = RouterApp
  ∧ ∀ terminal : ASGIApp, build_stack terminal [] = terminal.
Proof.
  intros Hempty. unfold build_middleware_stack. rewrite Hempty. done.
Qed.

Lemma build_middleware_stack_empty_witness :
  user_middleware (__init__ kw.defaults).2 = []
  ∧ build_middleware_stack (__init__ kw.defaults).2 = RouterApp
  ∧ ∀ terminal : ASGIApp, build_stack terminal [] = terminal.
Proof.
  split; [reflexivity|].
  apply (build_middleware_stack_empty (__init__ kw.defaults).2). reflexivity.
Defined.

(** ** Declaration order and wrapping order *)

(** C2, as stated, fails: with the list [[first; second]] given to the
    constructor, the middleware declared last is not the outermost wrapper,
    does not see the request first and does not see the response last. *)
Lemma last_declared_is_not_outermost :
  let self := (__init__ (kw.with_middleware [mw "first"; mw "second"])).2 in
  let scope := {| scope_path := "/"; scope_root_path := "" |} in
  last (user_middleware self) = Some (mw "second")
  ∧ outermost (build_middleware_stack self) ≠ Some (mw "second")
  ∧ head (run (build_middleware_stack self) scope) ≠ Some (Entered (mw "second"))
  ∧ last (run (build_middleware_stack self) scope) ≠ Some (Exited (mw "second")).
Proof. cbv zeta. vm_compute. repeat split; discriminate. Qed.

(** C2, amended.  The outermost wrapper of the composed stack is the
    middleware declared first (position 0 of the user-visible list): it runs
    first on the way in and last on the way out, around the stack of the
    rest of the list.  The middleware declared last is the innermost one,
    instantiated directly on the router. *)
Theorem first_declared_is_outermost (self : FastAPI) :
  outermost (build_middleware_stack self) = head (user_middleware self)
  ∧ innermost (build_middleware_stack self) = last (user_middleware self)
  ∧ ∀ scope,
      run (build_middleware_stack self) scope
      = match user_middleware self with
        | [] => [Dispatched scope]
        | m :: rest =>
            Entered m :: run (build_stack RouterApp rest) scope ++ [Exited m]
        end.
Proof.
  unfold build_middleware_stack. rewrite build_stack_nest.
  split; [|split].
  - rewrite outermost_nest. by destruct (user_middleware self).
  - apply innermost_nest.
  - intros scope. destruct (user_middleware self) as [|m rest]; [done|].
    by rewrite run_nest_cons, build_stack_nest.
Qed.

(** ** [add_middleware] *)

Lemma add_middleware_user_middleware c o self :
  user_middleware (add_middleware c o self)
  = {| cls := c; options := o |} :: user_middleware self.
Proof. done. Qed.

Lemma add_middleware_stack c o self :
  middleware_stack (add_middleware c o self)
  = MiddlewareApp c (build_stack RouterApp (user_middleware self)) o.
Proof.
  unfold add_middleware, build_middleware_stack. simpl.
  by rewrite build_stack_cons.
Qed.

Lemma add_middlewares_snoc ms m self :
  add_middlewares (ms ++ [m]) self
  = add_middleware (cls m) (options m) (add_middlewares ms self).
Proof. unfold add_middlewares. by rewrite fold_left_app. Qed.

Lemma add_middlewares_user_middleware ms self :
  user_middleware (add_middlewares ms self) = rev ms ++ user_middleware self.
Proof.
  induction ms as [|m ms IH] using rev_ind; [done|].
  rewrite add_middlewares_snoc, add_middleware_user_middleware, IH, rev_unit.
  by destruct m.
Qed.

(** C3, as stated, fails: after two [add_middleware] calls on a default
    application the most recently added middleware is not the innermost;
    the one added first is. *)
Lemma most_recently_added_is_not_innermost :
  let self :=
    add_middleware "second" [] (add_middleware "first" [] (__init__ kw.defaults).2) in
  innermost (middleware_stack self) = Some (mw "first")
  ∧ innermost (middleware_stack self) ≠ Some (mw "second").
Proof. cbv zeta. vm_compute. split; [reflexivity | discriminate]. Qed.

(** C3, amended.  Every [add_middleware] call inserts the new descriptor at
    position 0 of the declared list and rebuilds the whole stack from that
    list; the new middleware is instantiated on the stack of the list as it
    was, so after any sequence of [add_middleware] calls the most recently
    added middleware is the outermost of the composed stack, wrapping all
    those added before it. *)
Theorem most_recently_added_is_outermost
    (self : FastAPI) (earlier : list Middleware) (c : MiddlewareClass) (o : Options) :
  let before := add_middlewares earlier self in
  let after := add_middleware c o before in
  user_middleware after = {| cls := c; options := o |} :: user_middleware before
  ∧ middleware_stack after = build_middleware_stack after
  ∧ user_middleware after
    = {| cls := c; options := o |} :: rev earlier ++ user_middleware self
  ∧ middleware_stack after
    = MiddlewareApp c
        (build_stack RouterApp (rev earlier ++ user_middleware self)) o
  ∧ outermost (middleware_stack after) = Some {| cls := c; options := o |}.
Proof.
  intros before after.
  assert (Hlist : user_middleware before = rev earlier ++ user_middleware self)
    by apply add_middlewares_user_middleware.
  assert (Hstack : middleware_stack after
                   = MiddlewareApp c (build_stack RouterApp (user_middleware before)) o)
    by apply add_middleware_stack.
  split; [apply add_middleware_user_middleware|].
  split; [reflexivity|].
  split; [by rewrite <- Hlist|].
  split; [by rewrite Hstack, Hlist|].
  by rewrite Hstack.
Qed.

(** ** Execution order after three [add_middleware] calls *)

Lemma call_add_middleware c o self scope :
  __call__ (add_middleware c o self) scope
  = Entered {| cls := c; options := o |}
      :: run (build_stack RouterApp (user_middleware self))
             {| scope_path := scope_path scope; scope_root_path := root_path self |}
      ++ [Exited {| cls := c; options := o |}].
Proof.
  unfold __call__. rewrite add_middleware_stack. done.
Qed.

(** C4. On an application that holds no other middleware, after
    [add_middleware] for m1, then m2, then m3, a request enters m3, m2, m1,
    reaches the router and leaves through m1, m2, m3: m3 runs first on
    entry and m1 runs first on exit. *)
Theorem three_added_middleware_order
    (self : FastAPI) (c1 c2 c3 : MiddlewareClass) (o1 o2 o3 : Options)
    (scope : Scope) :
  user_middleware self = [] →
  let m1 := {| cls := c1; options := o1 |} in
  let m2 := {| cls := c2; options := o2 |} in
  let m3 := {| cls := c3; options := o3 |} in
  let app := add_middleware c3 o3 (add_middleware c2 o2 (add_middleware c1 o1 self)) in
  let trace := __call__ app scope in
  trace
  = [Entered m3; Entered m2; Entered m1;
     Dispatched {| scope_path := scope_path scope;
                   scope_root_path := root_path self |};
     Exited m1; Exited m2; Exited m3]
  ∧ first_entered trace = Some m3
  ∧ first_exited trace = Some m1.
Proof.
  intros Hempty m1 m2 m3 app trace.
  assert (Htrace : trace
    = [Entered m3; Entered m2; Entered m1;
       Dispatched {| scope_path := scope_path scope;
                     scope_root_path := root_path self |};
       Exited m1; Exited m2; Exited m3]).
  { subst trace app. rewrite call_add_middleware.
    rewrite !add_middleware_user_middleware, Hempty.
    rewrite !build_stack_cons. done. }
  rewrite Htrace. done.
Qed.

Lemma three_added_middleware_order_witness :
  let scope := {| scope_path := "/items"; scope_root_path := "" |} in
  let app :=
    add_middleware "m3" [] (add_middleware "m2" [] (add_middleware "m1" []
      (__init__ kw.defaults).2)) in
  user_middleware (__init__ kw.defaults).2 = []
  ∧ __call__ app scope
    = [Entered (mw "m3"); Entered (mw "m2"); Entered (mw "m1");
       Dispatched scope;
       Exited (mw "m1"); Exited (mw "m2"); Exited (mw "m3")]
  ∧ first_entered (__call__ app scope) = Some (mw "m3")
  ∧ first_exited (__call__ app scope) = Some (mw "m1").
Proof.
  split; [reflexivity|].
  apply (three_added_middleware_order (__init__ kw.defaults).2
           "m1" "m2" "m3" [] [] [] {| scope_path := "/items"; scope_root_path := "" |}).
  reflexivity.
Defined.

(** ** What a call leaves alone *)

Lemma add_exception_handler_table key handler self :
  exception_handlers (add_exception_handler key handler self)
  = <[key := handler]> (exception_handlers self).
Proof. by destruct key. Qed.

Lemma call_openapi_schema c self :
  openapi_schema (call c self) = openapi_schema self.
Proof. destruct c as [| | | | |[]]; done. Qed.

Lemma calls_cons c cs self : calls (c :: cs) self = calls cs (call c self).
Proof. done. Qed.

Lemma calls_openapi_schema cs self :
  openapi_schema (calls cs self) = openapi_schema self.
Proof.
  revert self. induction cs as [|c cs IH]; intros self; [done|].
  by rewrite calls_cons, IH, call_openapi_schema.
Qed.

Lemma call_exception_handlers_dom c self :
  dom (exception_handlers self) ⊆ dom (exception_handlers (call c self)).
Proof.
  destruct c; try done. simpl.
  rewrite add_exception_handler_table, dom_insert_L. set_solver.
Qed.

Lemma calls_exception_handlers_dom cs self :
  dom (exception_handlers self) ⊆ dom (exception_handlers (calls cs self)).
Proof.
  revert self. induction cs as [|c cs IH]; intros self; [done|].
  rewrite calls_cons. etrans; [apply (call_exception_handlers_dom c)|apply IH].
Qed.

(** ** The schema endpoint *)

Section SchemaCache.

Variable get_openapi : openapi_utils.Args → Dict.

(** The generated document is a non-empty dict: it always carries its
    format marker and [info] (section 6). *)
Hypothesis get_openapi_truthy : ∀ a, dict_truthy (get_openapi a) = true.

Lemma openapi_miss request self :
  opt_dict_truthy (openapi_schema self) = false →
  openapi get_openapi request self
  = (json_response (Some (get_openapi (openapi_args self))),
     set_openapi_schema (Some (get_openapi (openapi_args self))) self).
Proof. intros Hmiss. unfold openapi. by rewrite Hmiss. Qed.

Lemma openapi_hit request self doc :
  openapi_schema self = Some doc →
  dict_truthy doc = true →
  openapi get_openapi request self = (json_response (Some doc), self).
Proof.
  intros Hdoc Htrue. unfold openapi. rewrite Hdoc. simpl. by rewrite Htrue.
Qed.

(** C5. The schema endpoint caches write-once: on a facade with no
    schema yet, the first call generates the document from the routes the
    registry holds then, stores it and answers with it; whatever calls
    mutate the facade afterwards, route registrations that change what the
    generator would be given among them, every later call answers with
    that same stored document and leaves the facade as it found it. *)
Theorem openapi_write_once_cache
    (self : FastAPI) (first_request later_request : Request) (between : list Call) :
  openapi_schema self = None →
  let doc := get_openapi (openapi_args self) in
  let first := openapi get_openapi first_request self in
  let mutated := calls between first.2 in
  let later := openapi get_openapi later_request mutated in
  first.1 = json_response (Some doc)
  ∧ openapi_schema first.2 = Some doc
  ∧ later.1 = first.1
  ∧ later.2 = mutated
  ∧ openapi_schema later.2 = Some doc.
Proof.
  intros Hnone doc first mutated later.
  assert (Hfirst : first = (json_response (Some doc),
                            set_openapi_schema (Some doc) self)).
  { subst first doc. apply openapi_miss. by rewrite Hnone. }
  assert (Hcached : openapi_schema mutated = Some doc).
  { subst mutated. by rewrite calls_openapi_schema, Hfirst. }
  assert (Hlater : later = (json_response (Some doc), mutated)).
  { subst later. apply openapi_hit; [done|apply get_openapi_truthy]. }
  rewrite Hlater, Hfirst. simpl. by rewrite Hcached.
Qed.

End SchemaCache.

Lemma openapi_write_once_cache_witness :
  let between := [CallAddRoute "/items" (UserEndpoint "read_items") (Some ["GET"]) None true] in
  let doc := openapi_utils.get_openapi (openapi_args sample_facade) in
  let first := openapi openapi_utils.get_openapi a_request sample_facade in
  let mutated := calls between first.2 in
  let later := openapi openapi_utils.get_openapi a_request mutated in
  (∀ a, dict_truthy (openapi_utils.get_openapi a) = true)
  ∧ openapi_schema sample_facade = None
  ∧ openapi_utils.get_openapi (openapi_args mutated) ≠ doc
  ∧ first.1 = json_response (Some doc)
  ∧ openapi_schema first.2 = Some doc
  ∧ later.1 = first.1
  ∧ later.2 = mutated
  ∧ openapi_schema later.2 = Some doc.
Proof.
  split; [intros a; reflexivity|].
  split; [reflexivity|].
  split; [vm_compute; discriminate|].
  apply (openapi_write_once_cache openapi_utils.get_openapi
           (fun a => eq_refl) sample_facade a_request a_request
           [CallAddRoute "/items" (UserEndpoint "read_items") (Some ["GET"]) None true]).
  reflexivity.
Defined.

(** ** The exception table *)

(** C9. [add_exception_handler] stores the handler under its key, an
    integer status code or an exception class alike, replacing whatever the
    key held; every other key keeps its entry; and no call on the facade
    removes a key from the table. *)
Theorem add_exception_handler_overwrites
    (key : HandlerKey) (handler : Handler) (self : FastAPI) :
  let after := add_exception_handler key handler self in
  exception_handlers after !! key = Some handler
  ∧ (∀ other, other ≠ key →
       exception_handlers after !! other = exception_handlers self !! other)
  ∧ (∀ cs : list Call,
       dom (exception_handlers self) ⊆ dom (exception_handlers (calls cs self))).
Proof.
  intros after. subst after. rewrite add_exception_handler_table.
  split; [apply lookup_insert_eq|].
  split; [intros other Hne; by apply lookup_insert_ne|].
  intros cs. apply calls_exception_handlers_dom.
Qed.

(** ** Construction *)

Lemma init_left (a : kw.t) : (__init__ a).2 = assigned_attributes a.
Proof. done. Qed.


(** ** The default exception translations *)

Lemma setup_table self :
  exception_handlers (setup self)
  = <[ExcType RequestValidationError :=
        exception_handlers_py.request_validation_exception_handler]>
      (<[ExcType StarletteHTTPException :=
           exception_handlers_py.http_exception_handler]>
         (exception_handlers self)).
Proof. done. Qed.

(** C8 at a failing input.  Whatever its arguments, the constructor stops
    at line 161 and never calls [setup()]: the object it leaves has the
    table given as [exception_handlers=] and nothing else, so with the
    default arguments neither the HTTP-failure class nor the
    request-validation class has a handler.  [setup()] itself, once
    called, registers both. *)
Theorem construction_stops_before_setup :
  (__init__ kw.defaults).1 = AttributeError "routes"
  ∧ exception_handlers (__init__ kw.defaults).2 !! ExcType StarletteHTTPException = None
  ∧ exception_handlers (__init__ kw.defaults).2 !! ExcType RequestValidationError = None
  ∧ (∀ a, exception_handlers (__init__ a).2 = default ∅ (kw.exception_handlers a))
  ∧ (∀ self,
       is_Some (exception_handlers (setup self) !! ExcType StarletteHTTPException)
       ∧ is_Some (exception_handlers (setup self) !! ExcType RequestValidationError)).
Proof.
  split; [done|]. split; [done|]. split; [done|]. split; [done|].
  intros self. rewrite setup_table.
  split; [by rewrite lookup_insert_ne, lookup_insert_eq | by rewrite lookup_insert_eq].
Qed.

(** ** The schema and the route registry *)

Section Generator.

Import openapi_utils.













End Generator.




(** * Further properties *)

(** ** Composing and running stacks *)

(** X1. A stack over a concatenated list is the stack of the front part built on
    the stack of the back part. *)
Theorem build_stack_app (router : ASGIApp) (front back : list Middleware) :
  build_stack router (front ++ back) = build_stack (build_stack router back) front.
Proof.
  unfold build_stack. by rewrite rev_app_distr, fold_left_app.
Qed.

(** X2. A request through a built stack enters the middleware in list order,
    runs the terminal application, and leaves in the reverse order; each
    middleware is entered and left exactly once. *)
Theorem run_build_stack (terminal : ASGIApp) (l : list Middleware) (scope : Scope) :
  run (build_stack terminal l) scope
  = (Entered <$> l) ++ run terminal scope ++ (Exited <$> rev l).
Proof.
  induction l as [|m l IH].
  - simpl. by rewrite app_nil_r.
  - rewrite build_stack_cons. destruct m as [c o]. simpl run. rewrite IH.
    simpl rev. rewrite fmap_app, fmap_cons. simpl.
    by rewrite <- !app_assoc.
Qed.

(** ** What a sequence of calls does to each attribute *)

Lemma call_frame c self :
  root_path (call c self) = root_path self
  ∧ title (call c self) = title self
  ∧ openapi_url (call c self) = openapi_url self.
Proof. destruct c as [| | | | |[]]; done. Qed.

Lemma calls_frame cs self :
  root_path (calls cs self) = root_path self
  ∧ title (calls cs self) = title self
  ∧ openapi_url (calls cs self) = openapi_url self.
Proof.
  revert self. induction cs as [|c cs IH]; intros self; [done|].
  rewrite calls_cons.
  destruct (IH (call c self)) as (-> & -> & ->). apply call_frame.
Qed.

(** X3. After any calls the declared list is the descriptors added by the
    [add_middleware] calls, latest first, in front of the list as it was;
    no other call changes it. *)
Theorem user_middleware_after_calls (cs : list Call) (self : FastAPI) :
  user_middleware (calls cs self)
  = rev (added_middleware cs) ++ user_middleware self.
Proof.
  revert self. induction cs as [|c cs IH]; intros self; [done|].
  rewrite calls_cons, IH.
  destruct c as [| | | |middleware_class o|[]]; try done.
  unfold added_middleware. simpl. by rewrite <- app_assoc.
Qed.

(** X4. After any calls the exception table is the table as it was with the
    [add_exception_handler] registrations written over it in call order; no
    other call changes it. *)
Theorem exception_handlers_after_calls (cs : list Call) (self : FastAPI) :
  exception_handlers (calls cs self)
  = register_all (added_handlers cs) (exception_handlers self).
Proof.
  revert self. induction cs as [|c cs IH]; intros self; [done|].
  rewrite calls_cons, IH.
  destruct c as [| | | | |key handler]; try done.
  simpl call. by rewrite add_exception_handler_table.
Qed.

(** X5. A sequence of calls without [add_middleware] leaves the composed stack
    as it is: registering routes or handlers forces no rebuild. *)
Theorem stack_untouched_without_add_middleware (cs : list Call) (self : FastAPI) :
  added_middleware cs = [] →
  middleware_stack (calls cs self) = middleware_stack self.
Proof.
  revert self. induction cs as [|c cs IH]; intros self Hnone; [done|].
  destruct c as [| | | |middleware_class o|[]];
    try discriminate Hnone; rewrite calls_cons, IH; done.
Qed.

Lemma stack_untouched_without_add_middleware_witness :
  let cs := [CallAddRoute "/items" (UserEndpoint "read_items") (Some ["GET"]) None true;
             CallAddExceptionHandler (StatusCode 404) (fun _ _ => None)] in
  let self := add_middleware "gzip" [] (__init__ kw.defaults).2 in
  added_middleware cs = []
  ∧ middleware_stack (calls cs self) = middleware_stack self.
Proof.
  split; [reflexivity|].
  apply (stack_untouched_without_add_middleware
           [CallAddRoute "/items" (UserEndpoint "read_items") (Some ["GET"]) None true;
            CallAddExceptionHandler (StatusCode 404) (fun _ _ => None)]
           (add_middleware "gzip" [] (__init__ kw.defaults).2)).
  reflexivity.
Defined.

Lemma call_keeps_stack_in_sync c self :
  middleware_stack self = build_middleware_stack self →
  middleware_stack (call c self) = build_middleware_stack (call c self).
Proof. destruct c as [| | | | |[]]; done. Qed.

(** X6. On the object the constructor leaves when it stops at line 161,
    and on every facade reached from it by calls on the public surface,
    the stored stack is the stack of the current declared list. *)
Theorem middleware_stack_in_sync (a : kw.t) (cs : list Call) :
  middleware_stack (calls cs (__init__ a).2)
  = build_middleware_stack (calls cs (__init__ a).2).
Proof.
  assert (Hinit : middleware_stack (__init__ a).2
                  = build_middleware_stack (__init__ a).2) by done.
  revert Hinit. generalize (__init__ a).2.
  induction cs as [|c cs IH]; intros self Hsync; [done|].
  rewrite calls_cons. apply IH. by apply call_keeps_stack_in_sync.
Qed.

(** ** Handling a request on the object the constructor leaves *)

(** X9. On the object the constructor leaves, and on every facade reached
    from it by calls, a request enters the declared middleware in list
    order, is dispatched with its own path and the [root_path] given to
    the constructor, whatever [root_path] the incoming scope carried, and
    leaves through the middleware in reverse order. *)
Theorem call_trace (a : kw.t) (cs : list Call) (scope : Scope) :
  let self := calls cs (__init__ a).2 in
  __call__ self scope
  = (Entered <$> user_middleware self)
      ++ Dispatched {| scope_path := scope_path scope;
                       scope_root_path := kw.root_path a |}
      :: (Exited <$> rev (user_middleware self)).
Proof.
  intros self. unfold __call__.
  subst self. rewrite middleware_stack_in_sync.
  unfold build_middleware_stack. rewrite run_build_stack.
  destruct (calls_frame cs (__init__ a).2) as (-> & _). done.
Qed.

(** ** The exception table, continued *)

Lemma add_exception_handler_unfold key handler self :
  add_exception_handler key handler self
  = set_exception_handlers (<[key := handler]> (exception_handlers self)) self.
Proof. by destruct key. Qed.

Lemma exception_handlers_set table self :
  exception_handlers (set_exception_handlers table self) = table.
Proof. done. Qed.

Lemma set_exception_handlers_twice table1 table2 self :
  set_exception_handlers table2 (set_exception_handlers table1 self)
  = set_exception_handlers table2 self.
Proof. done. Qed.

Lemma setup_unfold self :
  setup self
  = set_exception_handlers
      (<[ExcType RequestValidationError :=
           exception_handlers_py.request_validation_exception_handler]>
         (<[ExcType StarletteHTTPException :=
              exception_handlers_py.http_exception_handler]>
            (exception_handlers self)))
      self.
Proof. done. Qed.

(** X10. Registering twice under one key is the same as registering the second
    handler alone: the whole facade is the same, not only the lookup. *)
Theorem add_exception_handler_twice
    (key : HandlerKey) (first second : Handler) (self : FastAPI) :
  add_exception_handler key second (add_exception_handler key first self)
  = add_exception_handler key second self.
Proof.
  destruct key; unfold add_exception_handler, set_exception_handlers; simpl;
    by rewrite insert_insert_eq.
Qed.

(** X11. Registrations under different keys can be made in either order. *)
Theorem add_exception_handler_commute
    (key1 key2 : HandlerKey) (handler1 handler2 : Handler) (self : FastAPI) :
  key1 ≠ key2 →
  add_exception_handler key1 handler1 (add_exception_handler key2 handler2 self)
  = add_exception_handler key2 handler2 (add_exception_handler key1 handler1 self).
Proof.
  intros Hne.
  destruct key1, key2; unfold add_exception_handler, set_exception_handlers; simpl;
    by rewrite (insert_insert_ne _ _ _ _ _ Hne).
Qed.

Lemma add_exception_handler_commute_witness :
  let self := (__init__ kw.defaults).2 in
  let not_found : Handler := fun _ _ => Some {| status_code := 404; body := JNull |} in
  let teapot : Handler := fun _ _ => Some {| status_code := 418; body := JNull |} in
  StatusCode 404 ≠ ExcType (UserException "Teapot")
  ∧ add_exception_handler (StatusCode 404) not_found
      (add_exception_handler (ExcType (UserException "Teapot")) teapot self)
    = add_exception_handler (ExcType (UserException "Teapot")) teapot
        (add_exception_handler (StatusCode 404) not_found self).
Proof.
  split; [discriminate|].
  apply (add_exception_handler_commute (StatusCode 404)
           (ExcType (UserException "Teapot"))).
  discriminate.
Defined.

(** X12. [setup] can be run again without effect: a second run leaves the
    facade as the first left it. *)
Theorem setup_idempotent (self : FastAPI) : setup (setup self) = setup self.
Proof.
  rewrite !setup_unfold, exception_handlers_set, set_exception_handlers_twice.
  rewrite (insert_insert_ne (M := gmap HandlerKey) _
             (ExcType StarletteHTTPException) (ExcType RequestValidationError))
    by done.
  by rewrite !insert_insert_eq.
Qed.

(** X13. Once [setup] has run on a facade, every facade reached from it by
    calls has a handler for the HTTP-failure class and one for the
    request-validation class: a call can replace them and none can remove
    them. *)
Theorem builtin_keys_always_handled (self : FastAPI) (cs : list Call) :
  is_Some (exception_handlers (calls cs (setup self))
             !! ExcType StarletteHTTPException)
  ∧ is_Some (exception_handlers (calls cs (setup self))
               !! ExcType RequestValidationError).
Proof.
  pose proof (calls_exception_handlers_dom cs (setup self)) as Hdom.
  rewrite setup_table in Hdom. rewrite !dom_insert_L in Hdom.
  split; apply elem_of_dom; set_solver.
Qed.

(** ** The schema endpoint, continued *)



(** ** The ReDoc page *)

(** X16. On every facade reached from the constructor by calls, the ReDoc page
    is rendered for the schema URL and the title given to the constructor,
    the title followed by " - ReDoc"; no call changes the page. *)
Theorem redoc_page
    (HTMLResponse : Type) (get_redoc_html : option string → string → HTMLResponse)
    (a : kw.t) (cs : list Call) (request : Request) :
  redoc HTMLResponse get_redoc_html request (calls cs (__init__ a).2)
  = get_redoc_html (kw.openapi_url a) (kw.title a +:+ " - ReDoc").
Proof.
  unfold redoc.
  destruct (calls_frame cs (__init__ a).2) as (_ & -> & ->). done.
Qed.
